(** * saidify_keri.py: SAID computation and rewrite of schema files

    A shallow embedding of [backend/schemas/saidify_keri.py]: the three
    functions [compute_said], [saidify_file] and [main], the import guard
    of the module, and the Python operations they call.  The keripy
    library and the parts of the Python runtime whose text is not in the
    script (the JSON reader and writer, [repr], [Path.stem]) are
    interfaces; the script is a program over them. *)

From Stdlib Require Import String Ascii.
From stdpp Require Import gmap strings list fin_maps pretty.

(** ** Python strings

    [str] values are modelled as [string] (8-bit characters).  The
    operations below are the ones the script calls. *)

Module PyStr.

(** [s.startswith(p)] together with [s[len(p):]]. *)
Fixpoint strip_prefix (p s : string) : option string :=
  match p with
  | EmptyString => Some s
  | String a p' =>
      match s with
      | EmptyString => None
      | String b s' => if Ascii.eqb a b then strip_prefix p' s' else None
      end
  end.

Definition startswith (p s : string) : bool :=
  match strip_prefix p s with Some _ => true | None => false end.

(** [s[n:]] *)
Fixpoint drop (n : nat) (s : string) : string :=
  match n, s with
  | O, _ => s
  | S _, EmptyString => EmptyString
  | S k, String _ s' => drop k s'
  end.

(** [s[:n]] *)
Fixpoint take (n : nat) (s : string) : string :=
  match n, s with
  | O, _ => EmptyString
  | S _, EmptyString => EmptyString
  | S k, String c s' => String c (take k s')
  end.

(** [old in s] *)
Fixpoint contains (old s : string) : bool :=
  startswith old s ||
  match s with
  | EmptyString => false
  | String _ s' => contains old s'
  end.

(** [s.replace(old, new)] for a non-empty [old]: the occurrences of [old]
    are found from left to right and do not overlap.  [skip] counts the
    characters of a matched occurrence that are still to be passed over. *)
Fixpoint replace_from (skip : nat) (old new s : string) : string :=
  match s with
  | EmptyString => EmptyString
  | String c s' =>
      match skip with
      | S k => replace_from k old new s'
      | O =>
          if startswith old s
          then new +:+ replace_from (String.length old - 1) old new s'
          else String c (replace_from 0 old new s')
      end
  end.

Definition replace (old new s : string) : string := replace_from 0 old new s.

(** [c.upper()] on the ASCII range: the letters a..z move to A..Z, every
    other character of the range is left as it is. *)
Definition upper_ascii (c : ascii) : ascii :=
  let n := nat_of_ascii c in
  if Nat.leb 97 n && Nat.leb n 122 then ascii_of_nat (n - 32) else c.

Fixpoint upper (s : string) : string :=
  match s with
  | EmptyString => EmptyString
  | String c s' => String (upper_ascii c) (upper s')
  end.

(** The first occurrence of [old] in [s]: the text before it and the text
    after it. *)
Fixpoint split_first (old s : string) : option (string * string) :=
  match strip_prefix old s with
  | Some rest => Some (EmptyString, rest)
  | None =>
      match s with
      | EmptyString => None
      | String c s' =>
          match split_first old s' with
          | Some (a, b) => Some (String c a, b)
          | None => None
          end
      end
  end.

End PyStr.

(** ** The constant name of a schema (lines 93-97 of the script) *)

Definition const_name (name : string) : string :=
  let const_name :=
    PyStr.upper (PyStr.replace "-" "_" (PyStr.replace "matou-" EmptyString name)) in
  if negb (PyStr.contains "_SCHEMA" const_name)
  then const_name +:+ "_SAID"
  else PyStr.replace "_SCHEMA" "_SCHEMA_SAID" const_name.

(** The rule as the specification words it: strip the prefix, replace the
    separators, uppercase, then append the suffix, or insert it right
    after the schema marker when the name has one. *)
Definition spec_const_name (name : string) : string :=
  let stripped :=
    match PyStr.strip_prefix "matou-" name with
    | Some rest => rest
    | None => name
    end in
  let c := PyStr.upper (PyStr.replace "-" "_" stripped) in
  match PyStr.split_first "_SCHEMA" c with
  | Some (before, after) => before +:+ "_SCHEMA" +:+ "_SAID" +:+ after
  | None => c +:+ "_SAID"
  end.

(** The names on which the two readings of the rule can be compared: the
    text ['matou-'] occurs at the start of the name or nowhere, and the
    marker occurs at most once in the transformed name. *)
Definition name_is_regular (name : string) : bool :=
  let stripped :=
    match PyStr.strip_prefix "matou-" name with
    | Some rest => rest
    | None => name
    end in
  negb (PyStr.contains "matou-" stripped) &&
  match PyStr.split_first "_SCHEMA"
          (PyStr.upper (PyStr.replace "-" "_" stripped)) with
  | Some (_, after) => negb (PyStr.contains "_SCHEMA" after)
  | None => true
  end.

(** ** JSON values and Python dicts *)

(** What [json.load] builds.  A float keeps its text; the script never
    computes with one. *)
#[warnings="-register-all"]
Inductive json : Type :=
  | JNull
  | JBool (b : bool)
  | JInt (n : Z)
  | JFloat (text : string)
  | JStr (s : string)
  | JArr (items : list json)
  | JObj (fields : list (string * json)).

(** A [dict] keeps its keys in insertion order, each key once. *)
Abbreviation pydict := (list (string * json)).

Section Dict.
Context {V : Type}.

(** [d.get(k)] *)
Fixpoint dict_get (k : string) (d : list (string * V)) : option V :=
  match d with
  | [] => None
  | (k', v) :: d' => if String.eqb k k' then Some v else dict_get k d'
  end.

(** [d[k] = v]: an existing key keeps its place, a new one goes last. *)
Fixpoint dict_set (k : string) (v : V) (d : list (string * V))
  : list (string * V) :=
  match d with
  | [] => [(k, v)]
  | (k', v') :: d' =>
      if String.eqb k k' then (k, v) :: d' else (k', v') :: dict_set k v d'
  end.

(** [d.pop(k, None)]: the entry of [k] goes, the others keep their order. *)
Fixpoint dict_pop (k : string) (d : list (string * V)) : list (string * V) :=
  match d with
  | [] => []
  | (k', v) :: d' =>
      if String.eqb k k' then dict_pop k d' else (k', v) :: dict_pop k d'
  end.

Definition dict_keys (d : list (string * V)) : list string := map fst d.
End Dict.

(** [old_id == new_id] where [new_id] is a [str]: a value of another type
    is never equal to a string. *)
Definition py_eq_str (v : json) (s : string) : bool :=
  match v with
  | JStr t => String.eqb t s
  | _ => false
  end.

(** [type(v).__name__] *)
Definition type_name (v : json) : string :=
  match v with
  | JNull => "NoneType"
  | JBool _ => "bool"
  | JInt _ => "int"
  | JFloat _ => "float"
  | JStr _ => "str"
  | JArr _ => "list"
  | JObj _ => "dict"
  end.

(** ** Exceptions *)

(** The classes of the exceptions the script can meet.  The three
    conditions of the library's pipeline carry the names the specification
    gives them; the library raises them as subclasses of [Exception].
    [KeyboardInterrupt] derives from [BaseException] only. *)
Inductive exn_class : Type :=
  | FileNotFoundError
  | PermissionError
  | OSError
  | JSONDecodeError
  | AttributeError
  | ValueError
  | UnsupportedAlgorithm
  | EncodingLengthMismatch
  | InvalidFieldType
  | KeyboardInterrupt.

(** [isinstance(e, Exception)] *)
Definition is_Exception (c : exn_class) : bool :=
  match c with
  | KeyboardInterrupt => false
  | _ => true
  end.

(** An exception: its class and [str(e)]. *)
Record exn : Type := Exn { exn_class_of : exn_class; exn_msg : string }.

(** ** The world the script runs in *)

(** What the storage does when a file is opened for writing and written:
    accept everything, refuse the open, or hold no more than [n]
    characters of the file. *)
Inductive fault : Type :=
  | Writable
  | ReadOnly
  | Full (n : nat).

(** What the script does that can be observed from outside. *)
Inductive event : Type :=
  | Stdout (line : string)
  | PrintHelp
  | OpenW (path : string).

(** Files by path, the behaviour of the storage per path, the dict objects
    of the running program by address, and the events so far. *)
Record world : Type := World {
  files : gmap string string;
  storage : string -> fault;
  heap : list pydict;
  out : list event
}.

Definition with_files (f : gmap string string) (w : world) : world :=
  World f (storage w) (heap w) (out w).
Definition with_heap (h : list pydict) (w : world) : world :=
  World (files w) (storage w) h (out w).
Definition with_out (o : list event) (w : world) : world :=
  World (files w) (storage w) (heap w) o.

(** A computation: it ends in a value or in a raised exception, and
    leaves a world. *)
Definition M (A : Type) : Type := world -> (exn + A) * world.

Definition ret {A} (a : A) : M A := fun w => (inr a, w).
Definition raise {A} (c : exn_class) (msg : string) : M A :=
  fun w => (inl (Exn c msg), w).
Definition bind {A B} (m : M A) (k : A -> M B) : M B :=
  fun w =>
    match m w with
    | (inr a, w') => k a w'
    | (inl e, w') => (inl e, w')
    end.

Declare Scope py_scope.
Delimit Scope py_scope with py.
Notation "x <- m ;; k" := (bind m (fun x => k))
  (at level 100, m at next level, right associativity) : py_scope.
Notation "m ;;; k" := (bind m (fun _ => k))
  (at level 100, right associativity) : py_scope.
Open Scope py_scope.

(** [print(s)] *)
Definition print (s : string) : M unit :=
  fun w => (inr tt, with_out (out w ++ [Stdout s]) w).

(** A new dict object. *)
Definition alloc (d : pydict) : M nat :=
  fun w => (inr (length (heap w)), with_heap (heap w ++ [d]) w).

(** The content of a dict object. *)
Definition deref (l : nat) : M pydict :=
  fun w => (inr (default [] (heap w !! l)), w).

(** The content of a dict object is replaced. *)
Definition store (l : nat) (d : pydict) : M unit :=
  fun w => (inr tt, with_heap (<[l := d]> (heap w)) w).

Definition nl : string := String "010"%char EmptyString.

(** ** Interfaces of the code the script calls *)

(** The Python runtime.  [json_loads] is [json.load] on the text of a
    file, with the message of the [JSONDecodeError] on the left;
    [json_dumps] is the text [json.dump(_, _, indent=4)] writes;
    [py_repr] is [repr]; [path_stem] is [Path.stem]. *)
Class Python : Type := {
  json_loads : string -> string + json;
  json_dumps : json -> string;
  py_repr : json -> string;
  path_stem : string -> string
}.

(** keripy's [scheming.Schemer(sed=d)]: [Schemer_said] is the [.said] of
    the schemer, or the exception the constructor raises; [Schemer_sed] is
    what the constructor leaves in the dict object it was handed. *)
Class Keri : Type := {
  Schemer_said : pydict -> exn + string;
  Schemer_sed : pydict -> pydict
}.

(** How the script was started: the parsed arguments and the sorted
    result of [script_dir.glob('matou-*.json')]. *)
Record invocation : Type := Invocation {
  args_all : bool;
  args_files : list string;
  matou_files : list string
}.

(** How the process ends: [sys.exit] or the end of the script with a
    status, or an exception nothing caught. *)
Inductive outcome : Type :=
  | Exited (status : nat)
  | Uncaught (e : exn).

Section Script.
Context `{Python}.

(** [f"{v}"] *)
Definition fstr (v : json) : string :=
  match v with
  | JStr s => s
  | _ => py_repr v
  end.

(** [open(filepath, 'r')] and [f.read()] *)
Definition read_file (filepath : string) : M string :=
  fun w =>
    match files w !! filepath with
    | Some text => (inr text, w)
    | None =>
        (inl (Exn FileNotFoundError
                ("[Errno 2] No such file or directory: "
                 +:+ py_repr (JStr filepath))), w)
    end.

(** [open(filepath, 'w')]: the file is emptied when the open succeeds. *)
Definition open_w (filepath : string) : M unit :=
  fun w =>
    let w1 := with_out (out w ++ [OpenW filepath]) w in
    match storage w filepath with
    | ReadOnly =>
        (inl (Exn PermissionError
                ("[Errno 13] Permission denied: "
                 +:+ py_repr (JStr filepath))), w1)
    | _ => (inr tt, with_files (<[filepath := EmptyString]> (files w1)) w1)
    end.

(** [f.write(s)] on a file opened for writing: the text goes after what
    the file holds, as far as the storage takes it. *)
Definition f_write (filepath : string) (s : string) : M unit :=
  fun w =>
    let content := default EmptyString (files w !! filepath) +:+ s in
    match storage w filepath with
    | Full n =>
        if Nat.leb (String.length content) n
        then (inr tt, with_files (<[filepath := content]> (files w)) w)
        else (inl (Exn OSError "[Errno 28] No space left on device"),
              with_files (<[filepath := PyStr.take n content]> (files w)) w)
    | _ => (inr tt, with_files (<[filepath := content]> (files w)) w)
    end.

(** The value of [json.load(f)]: a dict is an object of the heap. *)
Inductive pyval : Type :=
  | PRef (l : nat)
  | PImm (v : json).

Definition json_load (text : string) : M pyval :=
  match json_loads text with
  | inl msg => raise JSONDecodeError msg
  | inr (JObj d) => l <- alloc d ;; ret (PRef l)
  | inr v => ret (PImm v)
  end.

Context `{Keri}.

(** [scheming.Schemer(sed=sed).said] *)
Definition Schemer (sed : nat) : M string :=
  d <- deref sed ;;
  store sed (Schemer_sed d) ;;;
  match Schemer_said d with
  | inl e => fun w => (inl e, w)
  | inr said => ret said
  end.

(** Lines 27-35. *)
Definition compute_said (schema_dict : nat) : M string :=
  d <- deref schema_dict ;;
  schema_copy <- alloc d ;;
  d' <- deref schema_copy ;;
  store schema_copy (dict_pop "$id" d') ;;;
  Schemer schema_copy.

(** Lines 56-61: the branch of [saidify_file] that updates the schema
    and writes it back. *)
Definition update_file (schema : nat) (filepath new_id : string) : M unit :=
  d <- deref schema ;;
  store schema (dict_set "$id" (JStr new_id) d) ;;;
  open_w filepath ;;;
  d' <- deref schema ;;
  f_write filepath (json_dumps (JObj d')) ;;;
  f_write filepath nl ;;;
  print "  Updated!".

(** Lines 38-63. *)
Definition saidify_file (filepath : string) : M string :=
  print ("Processing: " +:+ filepath) ;;;
  text <- read_file filepath ;;
  schema <- json_load text ;;
  match schema with
  | PImm v =>
      raise AttributeError
        ("'" +:+ type_name v +:+ "' object has no attribute 'get'")
  | PRef schema =>
      d <- deref schema ;;
      let old_id := default (JStr "(none)") (dict_get "$id" d) in
      new_id <- compute_said schema ;;
      print ("  Old $id: " +:+ fstr old_id) ;;;
      print ("  New $id: " +:+ new_id) ;;;
      (if py_eq_str old_id new_id
       then print "  (no change)"
       else update_file schema filepath new_id) ;;;
      ret new_id
  end.

(** Lines 82-88: the loop over the files. *)
Fixpoint main_loop (fs : list string) (results : list (string * string))
  : M (list (string * string)) :=
  match fs with
  | [] => ret results
  | f :: rest =>
      fun w =>
        match saidify_file f w with
        | (inr said, w1) =>
            main_loop rest (dict_set (path_stem f) said results) w1
        | (inl e, w1) =>
            if is_Exception (exn_class_of e)
            then main_loop rest results
                   (snd (print ("  Error: " +:+ exn_msg e) w1))
            else (inl e, w1)
        end
  end.

(** Line 98. *)
Definition const_line (name said : string) : string :=
  "const " +:+ const_name name +:+ " = '" +:+ said +:+ "';".

(** Lines 92-98. *)
Fixpoint print_consts (results : list (string * string)) : M unit :=
  match results with
  | [] => ret tt
  | (name, said) :: rest =>
      print (const_line name said) ;;; print_consts rest
  end.

(** Lines 66-98. *)
Definition main (inv : invocation) : M unit :=
  let run (fs : list string) : M unit :=
    results <- main_loop fs [] ;;
    match results with
    | [] => ret tt
    | _ =>
        print (nl +:+ "=== SAIDs for code ===" +:+ nl) ;;;
        print_consts results
    end in
  if args_all inv then run (matou_files inv)
  else
    match args_files inv with
    | [] => fun w => (inr tt, with_out (out w ++ [PrintHelp]) w)
    | fs => run fs
    end.
End Script.

(** The identifier of a dict: the library's answer for the dict without
    its ['$id'] entry. *)
Definition said_of `{Keri} (d : pydict) : exn + string :=
  Schemer_said (dict_pop "$id" d).

(** The text a rewrite stores: the dict with the new ['$id'], dumped, and
    a newline. *)
Definition new_text `{Python} (d : pydict) (said : string) : string :=
  json_dumps (JObj (dict_set "$id" (JStr said) d)) +:+ nl.

(** The value of [old_id]: the ['$id'] of the dict, or the string
    ['(none)']. *)
Definition old_id_of (d : pydict) : json :=
  default (JStr "(none)") (dict_get "$id" d).

(** The three lines [saidify_file] prints before it decides. *)
Definition report `{Python} (filepath : string) (old_id : json) (said : string)
    : list event :=
  [Stdout ("Processing: " +:+ filepath);
   Stdout ("  Old $id: " +:+ fstr old_id);
   Stdout ("  New $id: " +:+ said)].

(** The events of a run from [w] to [w']. *)
Definition events_since (w w' : world) : list event :=
  drop (length (out w)) (out w').

(** [saidify_file] raises an exception of class [c]. *)
Definition raises `{Python} `{Keri} (filepath : string) (w : world)
    (c : exn_class) : Prop :=
  ∃ msg w', saidify_file filepath w = (inl (Exn c msg), w').

(** The two configuration errors of the library's pipeline. *)
Definition is_config_error (c : exn_class) : bool :=
  match c with
  | UnsupportedAlgorithm | EncodingLengthMismatch => true
  | _ => false
  end.

(** A reading of the run being ended by a configuration error: when the
    first file of a batch raises one, the loop ends in an exception. *)
Definition config_error_ends_run `{Python} `{Keri} (f : string)
    (rest : list string) (w : world) : Prop :=
  ∀ c, is_config_error c = true → raises f w c →
    ∃ e w', main_loop (f :: rest) [] w = (inl e, w').

(** A reading of a non-string ['$id'] being rejected: a file whose dict
    holds one makes [saidify_file] raise [InvalidFieldType]. *)
Definition non_string_id_rejected `{Python} `{Keri} (filepath : string)
    (w : world) : Prop :=
  ∀ text d v,
    files w !! filepath = Some text →
    json_loads text = inr (JObj d) →
    dict_get "$id" d = Some v →
    (∀ s, v ≠ JStr s) →
    raises filepath w InvalidFieldType.

(** A reading of the write being atomic: after a run the file holds what
    it held before, or the whole new text. *)
Definition atomic_persistence `{Python} `{Keri} (filepath : string)
    (w : world) : Prop :=
  ∀ d said,
    (∃ text, files w !! filepath = Some text ∧ json_loads text = inr (JObj d)) →
    said_of d = inr said →
    let w' := snd (saidify_file filepath w) in
    files w' !! filepath = files w !! filepath ∨
    files w' !! filepath = Some (new_text d said).

(** Lines 18-24 and 101-102: the module is run as a script.  Without
    keripy the import fails and the guard exits; with it, [main] runs. *)
Definition script `{Python} (keri : option Keri) (inv : invocation)
    (w : world) : outcome * world :=
  match keri with
  | None =>
      let w' :=
        with_out
          (out w ++
           [Stdout "Error: keripy not installed. Run: pip install keri";
            Stdout "Or run this script inside a KERIA Docker container:";
            Stdout "  docker exec -it keria python3 /path/to/saidify_keri.py"])
          w in
      (Exited 1, w')
  | Some k =>
      match @main _ k inv w with
      | (inr _, w') => (Exited 0, w')
      | (inl e, w') => (Uncaught e, w')
      end
  end.

(** ** A small runtime and library to run the script on concrete inputs *)

Module Demo.

Definition dq : string := String "034"%char EmptyString.
Definition quoted (s : string) : string := dq +:+ s +:+ dq.

(** Values without nesting, as [json.dumps] prints them. *)
Definition dump_atom (v : json) : string :=
  match v with
  | JNull => "null"
  | JBool true => "true"
  | JBool false => "false"
  | JInt n => pretty n
  | JFloat t => t
  | JStr s => quoted s
  | JArr _ => "[]"
  | JObj _ => "{}"
  end.

Fixpoint dump_fields (d : pydict) : string :=
  match d with
  | [] => EmptyString
  | [(k, v)] => "    " +:+ quoted k +:+ ": " +:+ dump_atom v +:+ nl
  | (k, v) :: d' =>
      "    " +:+ quoted k +:+ ": " +:+ dump_atom v +:+ "," +:+ nl
      +:+ dump_fields d'
  end.

(** [json.dumps(v, indent=4)] for a dict of values without nesting. *)
Definition dumps (v : json) : string :=
  match v with
  | JObj [] => "{}"
  | JObj d => "{" +:+ nl +:+ dump_fields d +:+ "}"
  | _ => dump_atom v
  end.

Definition repr (v : json) : string :=
  match v with
  | JNull => "None"
  | JBool true => "True"
  | JBool false => "False"
  | JStr s => "'" +:+ s +:+ "'"
  | _ => dump_atom v
  end.

Fixpoint basename_from (acc s : string) : string :=
  match s with
  | EmptyString => acc
  | String c s' =>
      if Ascii.eqb c "/" then basename_from EmptyString s'
      else basename_from (acc +:+ String c EmptyString) s'
  end.

Fixpoint rfind_dot (s : string) : option nat :=
  match s with
  | EmptyString => None
  | String c s' =>
      match rfind_dot s' with
      | Some i => Some (S i)
      | None => if Ascii.eqb c "." then Some 0 else None
      end
  end.

Definition stem (path : string) : string :=
  let name := basename_from EmptyString path in
  match rfind_dot name with
  | Some i =>
      if Nat.ltb 0 i && Nat.ltb i (String.length name - 1)
      then PyStr.take i name else name
  | None => name
  end.

(** The identifier the demonstration library gives a dict: the letter E
    and 43 characters made from the keys. *)
Definition said_of_keys (d : pydict) : string :=
  "E" +:+ PyStr.take 43
    (String.concat EmptyString (dict_keys d)
     +:+ "AAAAAAAAAAAAAAAAAAAAAAAAAAAAAAAAAAAAAAAAAAA").

Definition doc_foo : pydict := [("title", JStr "Foo")].
Definition said_foo : string := Eval vm_compute in said_of_keys doc_foo.
Definition doc_int_id : pydict := [("$id", JInt 5); ("title", JStr "Foo")].
Definition doc_said : pydict := [("$id", JStr said_foo); ("title", JStr "Foo")].
Definition doc_none : pydict := [("$id", JStr "(none)"); ("title", JStr "Foo")].

Definition text_foo : string := "{" +:+ quoted "title" +:+ ": " +:+ quoted "Foo" +:+ "}".
Definition text_int_id : string :=
  "{" +:+ quoted "$id" +:+ ": 5, " +:+ quoted "title" +:+ ": " +:+ quoted "Foo" +:+ "}".
Definition text_said : string := Eval vm_compute in dumps (JObj doc_said) +:+ nl.
Definition text_none : string := Eval vm_compute in dumps (JObj doc_none) +:+ nl.
Definition text_bad : string := "{" +:+ quoted "title" +:+ ": ".

(** The reader knows the texts above. *)
Definition loads (text : string) : string + json :=
  if String.eqb text text_foo then inr (JObj doc_foo)
  else if String.eqb text text_int_id then inr (JObj doc_int_id)
  else if String.eqb text text_said then inr (JObj doc_said)
  else if String.eqb text text_none then inr (JObj doc_none)
  else if String.eqb text "[]" then inr (JArr [])
  else inl "Expecting value: line 1 column 1 (char 0)".

#[export] Instance python : Python := {
  json_loads := loads;
  json_dumps := dumps;
  py_repr := repr;
  path_stem := stem
}.

(** A library that gives every non-empty dict an identifier and writes it
    into the dict it was handed. *)
Definition keri : Keri := {|
  Schemer_said d :=
    match d with
    | [] => inl (Exn ValueError "Improper initialization need raw or sed.")
    | _ => inr (said_of_keys d)
    end;
  Schemer_sed d :=
    match d with
    | [] => d
    | _ => dict_set "$id" (JStr (said_of_keys d)) d
    end
|}.

(** A library whose digest algorithm is not supported. *)
Definition keri_misconfigured : Keri := {|
  Schemer_said _ := inl (Exn UnsupportedAlgorithm "Unsupported digest code = X.");
  Schemer_sed d := d
|}.

Definition disk (l : list (string * string)) (st : string -> fault) : world :=
  World (list_to_map l) st [] [].

Definition writable : string -> fault := fun _ => Writable.

Definition w_foo : world := disk [("a.json", text_foo)] writable.
Definition w_said : world := disk [("a.json", text_said)] writable.
Definition w_none : world := disk [("a.json", text_none)] writable.
Definition w_int_id : world := disk [("a.json", text_int_id)] writable.
Definition w_full : world := disk [("a.json", text_foo)] (fun _ => Full 7).
Definition w_two : world :=
  disk [("a.json", text_foo); ("b.json", text_foo)] writable.
Definition w_heap : world := World ∅ writable [doc_said] [].

End Demo.

(** ** Notions used in the statements about a whole run *)



(** The files [main] loops over: the glob with [--all], the arguments
    otherwise. *)
Definition batch_of (inv : invocation) : list string :=
  if args_all inv then matou_files inv else args_files inv.

(** The lines [main] prints after the loop: nothing without a result,
    else the header and one line per result. *)
Definition const_lines (results : list (string * string)) : list event :=
  map (fun r => Stdout (const_line (fst r) (snd r))) results.

Definition summary (results : list (string * string)) : list event :=
  match results with
  | [] => []
  | _ => Stdout (nl +:+ "=== SAIDs for code ===" +:+ nl) :: const_lines results
  end.

Module DemoBatch.
Import Demo.

Definition w_list : world := disk [("l.json", "[]")] writable.
Definition w_mixed : world :=
  disk [("matou-a.json", text_foo); ("b.json", text_bad); ("l.json", "[]")]
    writable.

End DemoBatch.

(** * Properties *)

(** ** Dicts *)

Section DictFacts.
Context {V : Type}.
Implicit Types (d : list (string * V)) (k : string) (v : V).

Lemma dict_pop_set k v d : dict_pop k (dict_set k v d) = dict_pop k d.
Proof.
  induction d as [|[k' v'] d IH]; simpl.
  - by rewrite String.eqb_refl.
  - destruct (String.eqb k k') eqn:E; simpl.
    + by rewrite String.eqb_refl.
    + by rewrite E, IH.
Qed.

Lemma dict_pop_absent k d : dict_get k d = None → dict_pop k d = d.
Proof.
  induction d as [|[k' v'] d IH]; simpl; [done|].
  destruct (String.eqb k k'); [done|]. intros Hd. by rewrite IH.
Qed.

Lemma dict_get_pop k d : dict_get k (dict_pop k d) = None.
Proof.
  induction d as [|[k' v'] d IH]; simpl; [done|].
  destruct (String.eqb k k') eqn:E; simpl; [done|]. by rewrite E.
Qed.

Lemma dict_get_set k v d : dict_get k (dict_set k v d) = Some v.
Proof.
  induction d as [|[k' v'] d IH]; simpl.
  - by rewrite String.eqb_refl.
  - destruct (String.eqb k k') eqn:E; simpl.
    + by rewrite String.eqb_refl.
    + by rewrite E.
Qed.

Lemma dict_keys_pop k d : k ∉ dict_keys (dict_pop k d).
Proof.
  induction d as [|[k' v'] d IH]; simpl.
  - apply not_elem_of_nil.
  - destruct (String.eqb_spec k k') as [->|Hne]; [done|].
    simpl. rewrite elem_of_cons. intros [?|?]; [done|]. by apply IH.
Qed.

(** The operations keep every key once. *)
Lemma dict_pop_keys_sub k k' d : k' ∈ dict_keys (dict_pop k d) → k' ∈ dict_keys d.
Proof.
  induction d as [|[k0 v0] d IH]; simpl; [done|].
  destruct (String.eqb k k0); simpl; rewrite ?elem_of_cons; tauto.
Qed.

Lemma dict_pop_NoDup k d : NoDup (dict_keys d) → NoDup (dict_keys (dict_pop k d)).
Proof.
  induction d as [|[k0 v0] d IH]; simpl; [done|].
  rewrite NoDup_cons. intros [Hn Hd].
  destruct (String.eqb k k0); [by apply IH|].
  simpl. apply NoDup_cons. split; [|by apply IH].
  intros Hin. apply Hn. by eapply dict_pop_keys_sub.
Qed.


End DictFacts.

(** ** The heap *)

Lemma heap_snoc_lookup (h : list pydict) (d : pydict) :
  (h ++ [d]) !! length h = Some d.
Proof. by apply list_lookup_middle. Qed.

Lemma heap_snoc_insert (h : list pydict) (d d' : pydict) :
  <[length h := d']> (h ++ [d]) = h ++ [d'].
Proof.
  rewrite insert_app_r_alt by lia. by rewrite Nat.sub_diag.
Qed.

(** ** [compute_said] *)

Section ComputeSaid.
Context `{Python} `{Keri}.

(** What a call of [compute_said] does: it returns [said_of] of the dict,
    and one object, the copy, is new in the heap. *)
Lemma compute_said_run (schema_dict : nat) (d : pydict) (w : world) :
  heap w !! schema_dict = Some d →
  compute_said schema_dict w =
    (said_of d,
     with_heap (heap w ++ [Schemer_sed (dict_pop "$id" d)]) w).
Proof.
  intros Hd. unfold compute_said, Schemer, bind, deref, alloc, store, said_of.
  destruct w as [fs st h o]; simpl in *. rewrite Hd; simpl.
  rewrite heap_snoc_lookup; simpl.
  rewrite heap_snoc_insert, heap_snoc_lookup; simpl.
  unfold with_heap; simpl. rewrite heap_snoc_insert.
  by destruct (Schemer_said (dict_pop "$id" d)).
Qed.

(** C1. Self-exclusion: on a dict whose ['$id'] is set to [v1], on the
    same dict with ['$id'] set to [v2], and on the dict without ['$id'],
    [compute_said] returns the same result. *)
Theorem compute_said_self_exclusion (D : pydict) (v1 v2 : json)
    (w : world) (schema_dict : nat) :
  schema_dict < length (heap w) →
  let run (d : pydict) :=
    fst (compute_said schema_dict
           (with_heap (<[schema_dict := d]> (heap w)) w)) in
  run (dict_set "$id" v1 D) = run (dict_set "$id" v2 D) ∧
  run (dict_set "$id" v1 D) = run (dict_pop "$id" D).
Proof.
  intros Hlt run.
  assert (Hrun : ∀ d, run d = said_of d).
  { intros d. unfold run. erewrite compute_said_run; [done|].
    simpl. by apply list_lookup_insert_eq. }
  rewrite !Hrun. unfold said_of. rewrite !dict_pop_set.
  split; [done|].
  by rewrite (dict_pop_absent "$id" (dict_pop "$id" D)) by apply dict_get_pop.
Qed.

(** C9. Non-mutation: after [compute_said] the caller's dict object holds
    what it held, its ['$id'] entry included; so does every object that
    existed before the call, and no file and no output changed. *)
Theorem compute_said_keeps_caller_dict (w : world) (schema_dict : nat)
    (d : pydict) :
  heap w !! schema_dict = Some d →
  let w' := snd (compute_said schema_dict w) in
  heap w' !! schema_dict = Some d ∧
  dict_get "$id" (default [] (heap w' !! schema_dict)) = dict_get "$id" d ∧
  (∀ l, l < length (heap w) → heap w' !! l = heap w !! l) ∧
  files w' = files w ∧ out w' = out w.
Proof.
  intros Hd w'. unfold w'. rewrite (compute_said_run _ d) by done. simpl.
  assert (Hold : ∀ l, l < length (heap w) →
            (heap w ++ [Schemer_sed (dict_pop "$id" d)]) !! l = heap w !! l).
  { intros l Hl. by apply lookup_app_l. }
  assert (Hr : (heap w ++ [Schemer_sed (dict_pop "$id" d)]) !! schema_dict
               = Some d).
  { rewrite Hold; [done|]. by eapply lookup_lt_Some. }
  rewrite Hr. done.
Qed.
End ComputeSaid.

(** ** Strings *)

Lemma str_app_cons (c : ascii) (a b : string) : String c a +:+ b = String c (a +:+ b).
Proof. reflexivity. Qed.

Lemma str_app_nil_l (b : string) : EmptyString +:+ b = b.
Proof. reflexivity. Qed.

Lemma str_app_nil_r (a : string) : a +:+ EmptyString = a.
Proof. induction a as [|c a IH]; [done|]. by rewrite str_app_cons, IH. Qed.

Lemma str_app_assoc (a b c : string) : (a +:+ b) +:+ c = a +:+ b +:+ c.
Proof. induction a as [|x a IH]; [done|]. by rewrite !str_app_cons, IH. Qed.

Lemma str_length_app (a b : string) :
  String.length (a +:+ b) = String.length a + String.length b.
Proof. induction a as [|x a IH]; [done|]. rewrite str_app_cons. simpl. by rewrite IH. Qed.

Lemma str_take_app_le (n : nat) (a b : string) :
  n ≤ String.length a → PyStr.take n (a +:+ b) = PyStr.take n a.
Proof.
  revert n. induction a as [|x a IH]; intros [|n] Hn; try done.
  - simpl in Hn. lia.
  - rewrite str_app_cons. simpl in *. rewrite IH; [done|lia].
Qed.

Lemma str_take_all (n : nat) (a : string) :
  String.length a ≤ n → PyStr.take n a = a.
Proof.
  revert n. induction a as [|x a IH]; intros [|n] Hn; simpl in *; try done; try lia.
  rewrite IH; [done|lia].
Qed.

(** ** [saidify_file] *)

Section SaidifyFile.
Context `{Python} `{Keri}.

(** The branch that writes, by what the storage does with the file. *)
Lemma update_file_run (schema : nat) (filepath said : string) (d : pydict)
    (w : world) :
  heap w !! schema = Some d →
  let h' := <[schema := dict_set "$id" (JStr said) d]> (heap w) in
  let o' := out w ++ [OpenW filepath] in
  let written (text : string) := <[filepath := text]> (files w) in
  let done_ :=
    (inr tt, World (written (new_text d said)) (storage w) h'
               (o' ++ [Stdout "  Updated!"])) in
  update_file schema filepath said w =
    match storage w filepath with
    | Writable => done_
    | ReadOnly =>
        (inl (Exn PermissionError
                ("[Errno 13] Permission denied: " +:+ py_repr (JStr filepath))),
         World (files w) (storage w) h' o')
    | Full n =>
        if Nat.leb (String.length (new_text d said)) n then done_
        else (inl (Exn OSError "[Errno 28] No space left on device"),
              World (written (PyStr.take n (new_text d said))) (storage w) h' o')
    end.
Proof.
  intros Hd h' o' written done_.
  assert (Hd' : h' !! schema = Some (dict_set "$id" (JStr said) d)).
  { apply list_lookup_insert_eq. by eapply lookup_lt_Some. }
  unfold update_file, bind, deref, store, open_w, f_write, print, done_,
    written, new_text.
  destruct w as [fs st h o]; simpl in *. rewrite Hd; simpl. fold h'.
  set (body := json_dumps (JObj (dict_set "$id" (JStr said) d))).
  destruct (st filepath) as [| |n] eqn:Hst; simpl.
  - rewrite Hd'; simpl. rewrite Hst; simpl.
    rewrite !lookup_insert_eq; simpl. rewrite Hst, str_app_nil_l; simpl.
    unfold with_files, with_out; simpl. by rewrite !insert_insert_eq.
  - done.
  - rewrite Hd'; simpl. rewrite Hst; simpl.
    rewrite !lookup_insert_eq; simpl. rewrite str_app_nil_l. fold body.
    rewrite str_length_app. change (String.length nl) with 1.
    destruct (Nat.leb_spec (String.length body) n) as [Hle|Hgt]; simpl.
    + rewrite Hst, lookup_insert_eq; simpl.
      destruct (Nat.leb_spec (String.length (body +:+ nl)) n) as [Hle2|Hgt2];
        rewrite str_length_app in *; change (String.length nl) with 1 in *.
      * destruct (Nat.leb_spec (String.length body + 1) n); [|lia].
        unfold with_files, with_out; simpl. by rewrite !insert_insert_eq.
      * destruct (Nat.leb_spec (String.length body + 1) n); [lia|].
        unfold with_files, with_out; simpl. by rewrite !insert_insert_eq.
    + destruct (Nat.leb_spec (String.length body + 1) n); [lia|].
      unfold with_files, with_out; simpl. rewrite !insert_insert_eq.
      rewrite str_take_app_le by lia. done.
Qed.

(** A run on a file that loads and gets an identifier, up to the decision. *)
Lemma saidify_file_run (filepath text said : string) (d : pydict) (w : world) :
  files w !! filepath = Some text →
  json_loads text = inr (JObj d) →
  said_of d = inr said →
  let w1 :=
    World (files w) (storage w)
      (heap w ++ [d; Schemer_sed (dict_pop "$id" d)])
      (out w ++ report filepath (old_id_of d) said) in
  saidify_file filepath w =
    if py_eq_str (old_id_of d) said
    then (inr said, with_out (out w1 ++ [Stdout "  (no change)"]) w1)
    else
      match update_file (length (heap w)) filepath said w1 with
      | (inr _, w2) => (inr said, w2)
      | (inl e, w2) => (inl e, w2)
      end.
Proof.
  intros Hf Hl Hs w1.
  unfold saidify_file, bind, print, read_file, json_load.
  destruct w as [fs st h o]; simpl in *. rewrite Hf, Hl.
  unfold alloc, deref, ret, bind; simpl. rewrite heap_snoc_lookup; simpl.
  rewrite (compute_said_run _ d) by (simpl; apply heap_snoc_lookup).
  rewrite Hs. unfold with_out, with_heap, old_id_of, w1, report; simpl.
  rewrite <- !(assoc_L (++)); simpl.
  destruct (py_eq_str _ said); simpl; rewrite <- ?(assoc_L (++)); simpl;
    [done|].
  by destruct (update_file _ _ _ _) as [[e|[]] w2].
Qed.

(** A run that decides to write, by what the storage does with the file. *)
Lemma saidify_file_rewrite (filepath text said : string) (d : pydict)
    (w : world) :
  files w !! filepath = Some text →
  json_loads text = inr (JObj d) →
  said_of d = inr said →
  py_eq_str (old_id_of d) said = false →
  let h' := heap w ++ [dict_set "$id" (JStr said) d;
                       Schemer_sed (dict_pop "$id" d)] in
  let o' := out w ++ report filepath (old_id_of d) said ++ [OpenW filepath] in
  let written (t : string) := <[filepath := t]> (files w) in
  let done_ :=
    (inr said, World (written (new_text d said)) (storage w) h'
                 (o' ++ [Stdout "  Updated!"])) in
  saidify_file filepath w =
    match storage w filepath with
    | Writable => done_
    | ReadOnly =>
        (inl (Exn PermissionError
                ("[Errno 13] Permission denied: " +:+ py_repr (JStr filepath))),
         World (files w) (storage w) h' o')
    | Full n =>
        if Nat.leb (String.length (new_text d said)) n then done_
        else (inl (Exn OSError "[Errno 28] No space left on device"),
              World (written (PyStr.take n (new_text d said))) (storage w) h' o')
    end.
Proof.
  intros Hf Hl Hs Hne h' o' written done_.
  rewrite (saidify_file_run _ text said d) by done. rewrite Hne.
  rewrite (update_file_run _ _ _ d) by (simpl; by apply list_lookup_middle).
  simpl. unfold done_, written, h', o'.
  rewrite insert_app_r_alt by lia. rewrite Nat.sub_diag. simpl.
  rewrite <- !(assoc_L (++)). simpl.
  destruct (storage w filepath) as [| |n]; [done..|].
  by destruct (Nat.leb _ n).
Qed.

(** A run on a file that loads but gets no identifier from the library:
    the error of the library is the error of the run, nothing is written. *)
Lemma saidify_file_library_error (filepath text : string) (d : pydict)
    (e : exn) (w : world) :
  files w !! filepath = Some text →
  json_loads text = inr (JObj d) →
  said_of d = inl e →
  saidify_file filepath w =
    (inl e,
     World (files w) (storage w)
       (heap w ++ [d; Schemer_sed (dict_pop "$id" d)])
       (out w ++ [Stdout ("Processing: " +:+ filepath)])).
Proof.
  intros Hf Hl Hs.
  unfold saidify_file, bind, print, read_file, json_load.
  destruct w as [fs st h o]; simpl in *. rewrite Hf, Hl.
  unfold alloc, deref, ret, bind; simpl. rewrite heap_snoc_lookup; simpl.
  rewrite (compute_said_run _ d) by (simpl; apply heap_snoc_lookup).
  rewrite Hs. unfold with_out, with_heap; simpl.
  by rewrite <- !(assoc_L (++)).
Qed.

(** A run on a path that names no file. *)
Lemma saidify_file_not_found (filepath : string) (w : world) :
  files w !! filepath = None →
  saidify_file filepath w =
    (inl (Exn FileNotFoundError
            ("[Errno 2] No such file or directory: "
             +:+ py_repr (JStr filepath))),
     with_out (out w ++ [Stdout ("Processing: " +:+ filepath)]) w).
Proof.
  intros Hf. unfold saidify_file, bind, print, read_file. simpl. by rewrite Hf.
Qed.

(** A run on a file whose text is not JSON. *)
Lemma saidify_file_parse_error (filepath text msg : string) (w : world) :
  files w !! filepath = Some text →
  json_loads text = inl msg →
  saidify_file filepath w =
    (inl (Exn JSONDecodeError msg),
     with_out (out w ++ [Stdout ("Processing: " +:+ filepath)]) w).
Proof.
  intros Hf Hl. unfold saidify_file, bind, print, read_file, json_load. simpl.
  by rewrite Hf, Hl.
Qed.

(** C2. Idempotence of the rewrite: when the stored ['$id'] is the
    identifier computed from the content, [saidify_file] returns it,
    prints that nothing changed, opens no file for writing and leaves
    every file as it was; and a run that opens the file for writing is a
    run on a dict whose stored ['$id'] is not the computed identifier. *)
Theorem saidify_file_idempotent (filepath text said : string) (d : pydict)
    (w : world) :
  files w !! filepath = Some text →
  json_loads text = inr (JObj d) →
  said_of d = inr said →
  (dict_get "$id" d = Some (JStr said) →
   ∃ w', saidify_file filepath w = (inr said, w') ∧
         files w' = files w ∧
         events_since w w' =
           report filepath (JStr said) said ++ [Stdout "  (no change)"]) ∧
  (OpenW filepath ∈ events_since w (snd (saidify_file filepath w)) →
   dict_get "$id" d ≠ Some (JStr said)).
Proof.
  intros Hf Hl Hs.
  assert (Hsame : dict_get "$id" d = Some (JStr said) →
    ∃ w', saidify_file filepath w = (inr said, w') ∧
          files w' = files w ∧
          events_since w w' =
            report filepath (JStr said) said ++ [Stdout "  (no change)"]).
  { intros Hid. rewrite (saidify_file_run _ text said d) by done.
    unfold old_id_of. rewrite Hid. simpl. rewrite String.eqb_refl.
    eexists. split; [done|]. split; [done|].
    unfold events_since, with_out; simpl.
    rewrite <- (assoc_L (++)). by rewrite drop_app_length. }
  split; [done|].
  intros Hopen Hid. destruct (Hsame Hid) as (w' & Hrun & _ & Hev).
  rewrite Hrun in Hopen. simpl in Hopen. rewrite Hev in Hopen.
  unfold report in Hopen. simpl in Hopen.
  rewrite !elem_of_cons, elem_of_nil in Hopen.
  by destruct Hopen as [?|[?|[?|[?|?]]]].
Qed.

Lemma py_eq_str_non_string (v : json) (said : string) :
  (∀ s, v ≠ JStr s) → py_eq_str v said = false.
Proof. intros Hv. destruct v; try done. by destruct (Hv s). Qed.

Lemma events_since_app (w w' : world) (evs : list event) :
  out w' = out w ++ evs → events_since w w' = evs.
Proof. intros Ho. unfold events_since. rewrite Ho. apply drop_app_length. Qed.

(** C5, amended. When [saidify_file] decides to write, the file is opened
    for writing, which empties it, and the new text is written into it:
    where the storage takes the whole text the file holds it in full;
    where the open is refused every file is as it was; where the storage
    takes no more than [n] characters and the text is longer, the file
    holds the first [n] characters of the new text. *)
Theorem saidify_file_write_outcomes (filepath text said : string)
    (d : pydict) (w : world) :
  files w !! filepath = Some text →
  json_loads text = inr (JObj d) →
  said_of d = inr said →
  py_eq_str (old_id_of d) said = false →
  let r := fst (saidify_file filepath w) in
  let w' := snd (saidify_file filepath w) in
  let stored (t : string) := files w' = <[filepath := t]> (files w) in
  match storage w filepath with
  | Writable => r = inr said ∧ stored (new_text d said)
  | ReadOnly =>
      (∃ msg, r = inl (Exn PermissionError msg)) ∧ files w' = files w
  | Full n =>
      if Nat.leb (String.length (new_text d said)) n
      then r = inr said ∧ stored (new_text d said)
      else (∃ msg, r = inl (Exn OSError msg)) ∧
           stored (PyStr.take n (new_text d said))
  end.
Proof.
  intros Hf Hl Hs Hne. cbv zeta.
  rewrite (saidify_file_rewrite _ text said d) by done.
  destruct (storage w filepath) as [| |n]; simpl; [done|eauto|].
  destruct (Nat.leb _ n); simpl; eauto.
Qed.

(** C4, amended. A file whose ['$id'] holds a value that is not a string
    raises no error for it: the identifier is computed from the dict
    without ['$id'], the old value is not equal to it, and the file is
    written with ['$id'] set to the identifier; the loop records the
    identifier and goes on to the next file. *)
Theorem non_string_id_is_replaced (filepath text said : string) (d : pydict)
    (v : json) (w : world) (rest : list string)
    (results : list (string * string)) :
  files w !! filepath = Some text →
  json_loads text = inr (JObj d) →
  dict_get "$id" d = Some v →
  (∀ s, v ≠ JStr s) →
  said_of d = inr said →
  storage w filepath = Writable →
  ∃ w', saidify_file filepath w = (inr said, w') ∧
        files w' = <[filepath := new_text d said]> (files w) ∧
        main_loop (filepath :: rest) results w =
          main_loop rest (dict_set (path_stem filepath) said results) w'.
Proof.
  intros Hf Hl Hv Hns Hs Hst.
  assert (Hne : py_eq_str (old_id_of d) said = false).
  { unfold old_id_of. rewrite Hv. by apply py_eq_str_non_string. }
  pose proof (saidify_file_rewrite _ text said d w Hf Hl Hs Hne) as Hrun.
  simpl in Hrun. rewrite Hst in Hrun.
  eexists. split; [exact Hrun|]. split; [done|].
  simpl. by rewrite Hrun.
Qed.

(** C10. An absent ['$id'] and an ['$id'] that holds the string ['(none)']
    are one case for [saidify_file]: the old value is the string
    ['(none)'], it is printed as [(none)], and the file is opened for
    writing exactly when the computed identifier is not the string
    ['(none)']. *)
Theorem absent_id_is_the_string_none (filepath text said : string)
    (d : pydict) (w : world) :
  files w !! filepath = Some text →
  json_loads text = inr (JObj d) →
  said_of d = inr said →
  dict_get "$id" d = None ∨ dict_get "$id" d = Some (JStr "(none)") →
  old_id_of d = JStr "(none)" ∧
  ∃ evs,
    events_since w (snd (saidify_file filepath w)) =
      [Stdout ("Processing: " +:+ filepath);
       Stdout "  Old $id: (none)";
       Stdout ("  New $id: " +:+ said)] ++ evs ∧
    (OpenW filepath ∈ evs ↔ said ≠ "(none)").
Proof.
  intros Hf Hl Hs Hid.
  assert (Hold : old_id_of d = JStr "(none)").
  { unfold old_id_of. by destruct Hid as [-> | ->]. }
  split; [done|].
  destruct (String.eqb_spec "(none)" said) as [Heq|Hneq].
  - exists [Stdout "  (no change)"].
    rewrite (saidify_file_run _ text said d) by done.
    rewrite Hold. simpl. rewrite <- Heq. simpl. split.
    + apply events_since_app. unfold with_out, report; simpl.
      by rewrite <- (assoc_L (++)).
    + rewrite list_elem_of_singleton. split; [done|]. by intros [].
  - assert (Hne : py_eq_str (old_id_of d) said = false).
    { rewrite Hold. unfold py_eq_str. by apply String.eqb_neq. }
    pose proof (saidify_file_rewrite _ text said d w Hf Hl Hs Hne) as Hrun.
    simpl in Hrun. rewrite Hold in Hrun. unfold report in Hrun.
    simpl in Hrun.
    assert (Hin : ∀ l : list event, OpenW filepath ∈ OpenW filepath :: l).
    { intros l. apply elem_of_cons. by left. }
    destruct (storage w filepath) as [| |n].
    + exists [OpenW filepath; Stdout "  Updated!"]. rewrite Hrun. split.
      * apply events_since_app. simpl. by rewrite <- (assoc_L (++)).
      * split; [by intros _; congruence|by intros _].
    + exists [OpenW filepath]. rewrite Hrun. split.
      * by apply events_since_app.
      * split; [by intros _; congruence|by intros _].
    + destruct (Nat.leb _ n).
      * exists [OpenW filepath; Stdout "  Updated!"]. rewrite Hrun. split.
        -- apply events_since_app. simpl. by rewrite <- (assoc_L (++)).
        -- split; [by intros _; congruence|by intros _].
      * exists [OpenW filepath]. rewrite Hrun. split.
        -- by apply events_since_app.
        -- split; [by intros _; congruence|by intros _].
Qed.
End SaidifyFile.

(** ** The loop of [main] and the script *)

Section Batch.
Context `{Python} `{Keri}.

(** [except Exception]: an exception of that class is printed and the
    loop goes on with the files that are left and the results so far. *)
Lemma main_loop_caught (f : string) (rest : list string)
    (results : list (string * string)) (e : exn) (w w1 : world) :
  saidify_file f w = (inl e, w1) →
  is_Exception (exn_class_of e) = true →
  main_loop (f :: rest) results w =
    main_loop rest results
      (with_out (out w1 ++ [Stdout ("  Error: " +:+ exn_msg e)]) w1).
Proof. intros Hrun Hexc. simpl. by rewrite Hrun, Hexc. Qed.

(** An exception that is no [Exception] leaves the loop. *)
Lemma main_loop_uncaught (f : string) (rest : list string)
    (results : list (string * string)) (e : exn) (w w1 : world) :
  saidify_file f w = (inl e, w1) →
  is_Exception (exn_class_of e) = false →
  main_loop (f :: rest) results w = (inl e, w1).
Proof. intros Hrun Hexc. simpl. by rewrite Hrun, Hexc. Qed.

Lemma main_loop_ok (f said : string) (rest : list string)
    (results : list (string * string)) (w w1 : world) :
  saidify_file f w = (inr said, w1) →
  main_loop (f :: rest) results w =
    main_loop rest (dict_set (path_stem f) said results) w1.
Proof. intros Hrun. simpl. by rewrite Hrun. Qed.

(** C6. Per-document isolation: a path that names no file, and a file
    whose text is not JSON, get their error printed after their
    [Processing] line; no file changes, the results so far are kept, and
    the loop goes on with the files that are left. *)
Theorem main_loop_isolates_failure (f : string) (rest : list string)
    (results : list (string * string)) (w : world) :
  files w !! f = None ∨
  (∃ text msg, files w !! f = Some text ∧ json_loads text = inl msg) →
  ∃ msg,
    main_loop (f :: rest) results w =
      main_loop rest results
        (with_out
           (out w ++ [Stdout ("Processing: " +:+ f);
                      Stdout ("  Error: " +:+ msg)]) w).
Proof.
  intros [Hnone | (text & msg & Hf & Hl)].
  - eexists. erewrite main_loop_caught;
      [|by apply saidify_file_not_found|done].
    unfold with_out; simpl. by rewrite <- (assoc_L (++)).
  - exists msg. erewrite main_loop_caught;
      [|by eapply saidify_file_parse_error|done].
    unfold with_out; simpl. by rewrite <- (assoc_L (++)).
Qed.

(** C3, amended. A configuration error of the library's pipeline does
    not end the run: when the library raises [UnsupportedAlgorithm] or
    [EncodingLengthMismatch] for the dict of a file, the message is
    printed after the [Processing] line of the file, no file changes, the
    results so far are kept, and the loop goes on with the files that are
    left. *)
Theorem main_loop_records_config_error (f text : string) (d : pydict)
    (e : exn) (rest : list string) (results : list (string * string))
    (w : world) :
  files w !! f = Some text →
  json_loads text = inr (JObj d) →
  said_of d = inl e →
  is_config_error (exn_class_of e) = true →
  main_loop (f :: rest) results w =
    main_loop rest results
      (World (files w) (storage w)
         (heap w ++ [d; Schemer_sed (dict_pop "$id" d)])
         (out w ++ [Stdout ("Processing: " +:+ f);
                    Stdout ("  Error: " +:+ exn_msg e)])).
Proof.
  intros Hf Hl Hs Hc.
  erewrite main_loop_caught; [|by eapply saidify_file_library_error|].
  - unfold with_out; simpl. by rewrite <- (assoc_L (++)).
  - by destruct (exn_class_of e).
Qed.
End Batch.

(** C8. Missing capability: without keripy the script prints the three
    lines of the import guard and exits with status 1; [main] does not
    run, so no file is processed and none changes. *)
Theorem script_without_keripy `{Python} (inv : invocation) (w : world) :
  script None inv w =
    (Exited 1,
     World (files w) (storage w) (heap w)
       (out w ++
        [Stdout "Error: keripy not installed. Run: pip install keri";
         Stdout "Or run this script inside a KERIA Docker container:";
         Stdout "  docker exec -it keria python3 /path/to/saidify_keri.py"])).
Proof. reflexivity. Qed.

(** ** [str.replace] and the constant names *)

Section Replace.
Implicit Types (old new s : string).

Lemma replace_from_drop old new s (k : nat) :
  PyStr.replace_from k old new s = PyStr.replace old new (PyStr.drop k s).
Proof.
  revert k. induction s as [|c s IH]; intros [|k]; try done.
  simpl. apply IH.
Qed.

Lemma strip_prefix_drop old s rest :
  PyStr.strip_prefix old s = Some rest →
  PyStr.drop (String.length old) s = rest.
Proof.
  revert s. induction old as [|a old IH]; intros s; simpl.
  - by intros [= ->].
  - destruct s as [|b s]; [done|]. destruct (Ascii.eqb a b); [|done].
    apply IH.
Qed.

(** At an occurrence of [old] the text [new] is produced and the scan
    goes on after the occurrence. *)
Lemma replace_match (a : ascii) old new s rest :
  PyStr.strip_prefix (String a old) s = Some rest →
  PyStr.replace (String a old) new s = new +:+ PyStr.replace (String a old) new rest.
Proof.
  intros Hp. destruct s as [|c s]; [done|].
  unfold PyStr.replace at 1. unfold PyStr.replace_from; fold PyStr.replace_from.
  unfold PyStr.startswith. rewrite Hp. f_equal.
  rewrite replace_from_drop. f_equal.
  apply strip_prefix_drop in Hp. simpl in Hp. simpl String.length.
  by rewrite Nat.sub_succ, Nat.sub_0_r.
Qed.

(** Where [old] does not start, the character is kept. *)
Lemma replace_no_match old new (c : ascii) s :
  PyStr.strip_prefix old (String c s) = None →
  PyStr.replace old new (String c s) = String c (PyStr.replace old new s).
Proof.
  intros Hp. unfold PyStr.replace at 1.
  unfold PyStr.replace_from; fold PyStr.replace_from.
  unfold PyStr.startswith. by rewrite Hp.
Qed.

Lemma contains_cons_false old (c : ascii) s :
  PyStr.contains old (String c s) = false →
  PyStr.strip_prefix old (String c s) = None ∧ PyStr.contains old s = false.
Proof.
  unfold PyStr.contains; fold PyStr.contains. unfold PyStr.startswith.
  destruct (PyStr.strip_prefix old (String c s)); [done|].
  rewrite orb_false_l. by intros ->.
Qed.

(** A string without an occurrence of [old] is left as it is. *)
Lemma replace_absent old new s :
  PyStr.contains old s = false → PyStr.replace old new s = s.
Proof.
  induction s as [|c s IH]; [done|].
  intros [Hp Hc]%contains_cons_false.
  rewrite replace_no_match by done. by rewrite IH.
Qed.

(** Up to the first occurrence nothing changes. *)
Lemma replace_split_first (a : ascii) old new s before after :
  PyStr.split_first (String a old) s = Some (before, after) →
  PyStr.replace (String a old) new s =
    before +:+ new +:+ PyStr.replace (String a old) new after.
Proof.
  revert before. induction s as [|c s IH]; intros before.
  - done.
  - unfold PyStr.split_first; fold PyStr.split_first.
    destruct (PyStr.strip_prefix (String a old) (String c s)) as [rest|] eqn:Hp.
    + intros [= <- <-]. by apply replace_match.
    + destruct (PyStr.split_first (String a old) s) as [[a' b']|]; [|done].
      intros [= <- <-]. rewrite replace_no_match by done.
      by rewrite (IH a').
Qed.

Lemma split_first_contains old s :
  PyStr.contains old s = negb (bool_decide (PyStr.split_first old s = None)).
Proof.
  induction s as [|c s IH].
  - unfold PyStr.contains, PyStr.split_first, PyStr.startswith.
    by destruct (PyStr.strip_prefix old EmptyString).
  - unfold PyStr.contains; fold PyStr.contains.
    unfold PyStr.split_first; fold PyStr.split_first.
    unfold PyStr.startswith.
    destruct (PyStr.strip_prefix old (String c s)); [done|].
    rewrite IH. simpl.
    by destruct (PyStr.split_first old s) as [[??]|].
Qed.
End Replace.

(** C7, amended. For a base name in which ['matou-'] occurs at the start
    or nowhere, and whose transformed name holds the marker ['_SCHEMA'] at
    most once, the constant name of the script is the name by the rule:
    the prefix ['matou-'] stripped, ['-'] replaced by ['_'], uppercased,
    then ['_SAID'] appended, or inserted right after the marker when there
    is one; ['matou-endorsement-schema'] gives ['ENDORSEMENT_SCHEMA_SAID']
    and ['matou-foo'] gives ['FOO_SAID']. *)
Theorem const_name_follows_rule (name : string) :
  name_is_regular name = true →
  const_name name = spec_const_name name ∧
  const_name "matou-endorsement-schema" = "ENDORSEMENT_SCHEMA_SAID" ∧
  const_name "matou-foo" = "FOO_SAID".
Proof.
  intros Hreg. split; [|by split].
  unfold name_is_regular in Hreg. unfold const_name, spec_const_name.
  assert (Hstrip : PyStr.replace "matou-" EmptyString name =
            match PyStr.strip_prefix "matou-" name with
            | Some rest => rest
            | None => name
            end).
  { destruct (PyStr.strip_prefix "matou-" name) as [rest|] eqn:Hp.
    - apply andb_prop in Hreg as [Hc _]. apply negb_true_iff in Hc.
      rewrite (replace_match _ _ _ _ _ Hp).
      by rewrite (replace_absent _ _ _ Hc).
    - apply andb_prop in Hreg as [Hc _]. apply negb_true_iff in Hc.
      by apply replace_absent. }
  rewrite Hstrip.
  set (c := PyStr.upper (PyStr.replace "-" "_" _)) in *.
  apply andb_prop in Hreg as [_ Hreg].
  rewrite split_first_contains.
  destruct (PyStr.split_first "_SCHEMA" c) as [[before after]|] eqn:Hsp.
  - apply negb_true_iff in Hreg.
    rewrite bool_decide_eq_false_2 by done. cbv [negb].
    rewrite (replace_split_first _ _ _ _ _ _ Hsp).
    by rewrite (replace_absent _ _ _ Hreg).
  - by rewrite bool_decide_eq_true_2.
Qed.

(** ** Runs on concrete inputs *)

Section Runs.
Import Demo.

(** A closed equation between runs is settled by running both sides. *)
Ltac run := vm_compute; reflexivity.

(** C3, as stated, fails: with a library whose algorithm is not
    supported, the first file of a batch of two raises
    [UnsupportedAlgorithm] and the loop does not end in an exception. *)
Lemma config_error_does_not_end_run :
  ¬ @config_error_ends_run python keri_misconfigured "a.json" ["b.json"] w_two.
Proof.
  intros Hc.
  destruct (Hc UnsupportedAlgorithm eq_refl) as (e & w' & Hrun).
  - unfold raises.
    destruct (saidify_file "a.json" w_two) as [r w1] eqn:E.
    vm_compute in E. injection E as <- <-. eexists _, _. reflexivity.
  - vm_compute in Hrun. discriminate Hrun.
Qed.

(** C4, as stated, fails: a file whose ['$id'] is the number 5 raises no
    [InvalidFieldType]. *)
Lemma non_string_id_not_rejected :
  ¬ @non_string_id_rejected python keri "a.json" w_int_id.
Proof.
  intros Hc.
  destruct (Hc text_int_id doc_int_id (JInt 5)) as (msg & w' & Hrun);
    [run | run | run | intros s; discriminate |].
  vm_compute in Hrun. discriminate Hrun.
Qed.

(** C5, as stated, fails: where the storage takes seven characters, the
    file holds neither what it held nor the new text after the run. *)
Lemma write_is_not_atomic :
  ¬ @atomic_persistence python keri "a.json" w_full.
Proof.
  intros Hc.
  destruct (Hc doc_foo said_foo) as [Hsame | Hnew].
  - exists text_foo. split; run.
  - run.
  - vm_compute in Hsame. discriminate Hsame.
  - vm_compute in Hnew. discriminate Hnew.
Qed.

(** C7, as stated, fails: in ['matou-matou-foo'] the script removes both
    occurrences of ['matou-'], the rule strips the prefix once. *)
Lemma const_name_not_prefix_rule :
  const_name "matou-matou-foo" = "FOO_SAID" ∧
  spec_const_name "matou-matou-foo" = "MATOU_FOO_SAID" ∧
  ¬ (∀ name, const_name name = spec_const_name name).
Proof.
  split; [run|]. split; [run|].
  intros Hc. specialize (Hc "matou-matou-foo"). vm_compute in Hc.
  discriminate Hc.
Qed.

Lemma compute_said_self_exclusion_witness :
  0 < length (heap w_heap) ∧
  fst (@compute_said keri 0
         (with_heap (<[0 := dict_set "$id" (JInt 5) doc_foo]> (heap w_heap))
            w_heap)) =
  fst (@compute_said keri 0
         (with_heap (<[0 := dict_set "$id" (JStr "x") doc_foo]> (heap w_heap))
            w_heap)).
Proof.
  split; [simpl; lia|].
  apply (@compute_said_self_exclusion keri doc_foo (JInt 5) (JStr "x")
           w_heap 0).
  simpl; lia.
Defined.

Lemma compute_said_keeps_caller_dict_witness :
  heap w_heap !! 0 = Some doc_said ∧
  heap (snd (@compute_said keri 0 w_heap)) !! 0 = Some doc_said.
Proof.
  split; [run|].
  destruct (@compute_said_keeps_caller_dict keri w_heap 0 doc_said) as [Hk _];
    [run | exact Hk].
Defined.

Lemma saidify_file_idempotent_witness :
  files w_said !! "a.json" = Some text_said ∧
  json_loads text_said = inr (JObj doc_said) ∧
  @said_of keri doc_said = inr said_foo ∧
  dict_get "$id" doc_said = Some (JStr said_foo) ∧
  ∃ w', @saidify_file python keri "a.json" w_said = (inr said_foo, w') ∧
        files w' = files w_said ∧
        events_since w_said w' =
          report "a.json" (JStr said_foo) said_foo ++ [Stdout "  (no change)"].
Proof.
  repeat (split; [run|]).
  apply (@saidify_file_idempotent python keri "a.json" text_said said_foo
           doc_said w_said); run.
Defined.

Lemma main_loop_records_config_error_witness :
  files w_two !! "a.json" = Some text_foo ∧
  json_loads text_foo = inr (JObj doc_foo) ∧
  @said_of keri_misconfigured doc_foo =
    inl (Exn UnsupportedAlgorithm "Unsupported digest code = X.") ∧
  @main_loop python keri_misconfigured ["a.json"; "b.json"] [] w_two =
    @main_loop python keri_misconfigured ["b.json"] []
      (World (files w_two) (storage w_two) [doc_foo; doc_foo]
         [Stdout "Processing: a.json";
          Stdout "  Error: Unsupported digest code = X."]).
Proof.
  repeat (split; [run|]).
  apply (@main_loop_records_config_error python keri_misconfigured "a.json"
           text_foo doc_foo
           (Exn UnsupportedAlgorithm "Unsupported digest code = X.")
           ["b.json"] [] w_two); run.
Defined.

Lemma non_string_id_is_replaced_witness :
  files w_int_id !! "a.json" = Some text_int_id ∧
  json_loads text_int_id = inr (JObj doc_int_id) ∧
  dict_get "$id" doc_int_id = Some (JInt 5) ∧
  (∀ s, JInt 5 ≠ JStr s) ∧
  @said_of keri doc_int_id = inr said_foo ∧
  storage w_int_id "a.json" = Writable ∧
  ∃ w', @saidify_file python keri "a.json" w_int_id = (inr said_foo, w') ∧
        files w' = <["a.json" := new_text doc_int_id said_foo]> (files w_int_id) ∧
        @main_loop python keri ["a.json"] [] w_int_id =
          @main_loop python keri [] (dict_set (path_stem "a.json") said_foo []) w'.
Proof.
  repeat (split; [first [run | intros s; discriminate]|]).
  apply (@non_string_id_is_replaced python keri "a.json" text_int_id said_foo
           doc_int_id (JInt 5) w_int_id [] []);
    first [run | intros s; discriminate].
Defined.

Lemma saidify_file_write_outcomes_witness :
  files w_full !! "a.json" = Some text_foo ∧
  json_loads text_foo = inr (JObj doc_foo) ∧
  @said_of keri doc_foo = inr said_foo ∧
  py_eq_str (old_id_of doc_foo) said_foo = false ∧
  (∃ msg, fst (@saidify_file python keri "a.json" w_full)
            = inl (Exn OSError msg)) ∧
  files (snd (@saidify_file python keri "a.json" w_full)) =
    <["a.json" := PyStr.take 7 (new_text doc_foo said_foo)]> (files w_full).
Proof.
  repeat (split; [run|]).
  apply (@saidify_file_write_outcomes python keri "a.json" text_foo said_foo
           doc_foo w_full); run.
Defined.

Lemma main_loop_isolates_failure_witness :
  files w_foo !! "c.json" = None ∧
  ∃ msg,
    @main_loop python keri ["c.json"; "a.json"] [] w_foo =
      @main_loop python keri ["a.json"] []
        (with_out
           (out w_foo ++ [Stdout ("Processing: " +:+ "c.json");
                          Stdout ("  Error: " +:+ msg)]) w_foo).
Proof.
  split; [run|].
  apply (@main_loop_isolates_failure python keri "c.json" ["a.json"] [] w_foo).
  left. run.
Defined.

Lemma const_name_follows_rule_witness :
  name_is_regular "matou-endorsement-schema" = true ∧
  const_name "matou-endorsement-schema" =
    spec_const_name "matou-endorsement-schema" ∧
  const_name "matou-endorsement-schema" = "ENDORSEMENT_SCHEMA_SAID" ∧
  const_name "matou-foo" = "FOO_SAID".
Proof.
  split; [run|].
  apply (const_name_follows_rule "matou-endorsement-schema"). run.
Defined.

Lemma absent_id_is_the_string_none_witness :
  files w_none !! "a.json" = Some text_none ∧
  json_loads text_none = inr (JObj doc_none) ∧
  @said_of keri doc_none = inr said_foo ∧
  dict_get "$id" doc_none = Some (JStr "(none)") ∧
  old_id_of doc_none = JStr "(none)" ∧
  ∃ evs,
    events_since w_none (snd (@saidify_file python keri "a.json" w_none)) =
      [Stdout ("Processing: " +:+ "a.json");
       Stdout "  Old $id: (none)";
       Stdout ("  New $id: " +:+ said_foo)] ++ evs ∧
    (OpenW "a.json" ∈ evs ↔ said_foo ≠ "(none)").
Proof.
  repeat (split; [run|]).
  apply (@absent_id_is_the_string_none python keri "a.json" text_none said_foo
           doc_none w_none); first [run | right; run].
Defined.
End Runs.

(** * Further properties of the script *)

(** ** Every outcome of [saidify_file] *)

Section Outcomes.
Context `{Python} `{Keri}.

(** A file that holds JSON other than an object: [schema.get] fails. *)
Lemma saidify_file_not_object (filepath text : string) (v : json) (w : world) :
  files w !! filepath = Some text →
  json_loads text = inr v →
  (∀ d, v ≠ JObj d) →
  saidify_file filepath w =
    (inl (Exn AttributeError
            ("'" +:+ type_name v +:+ "' object has no attribute 'get'")),
     with_out (out w ++ [Stdout ("Processing: " +:+ filepath)]) w).
Proof.
  intros Hf Hl Hv.
  unfold saidify_file, bind, print, read_file, json_load. simpl.
  rewrite Hf, Hl. destruct v; try done. by destruct (Hv fields).
Qed.

(** X1. A file whose JSON is not an object is an error of that file: the
    [AttributeError] of [schema.get] is printed after the [Processing]
    line, nothing is written, and the loop goes on. *)
Theorem main_loop_skips_non_object (f text : string) (v : json)
    (rest : list string) (results : list (string * string)) (w : world) :
  files w !! f = Some text →
  json_loads text = inr v →
  (∀ d, v ≠ JObj d) →
  main_loop (f :: rest) results w =
    main_loop rest results
      (with_out
         (out w ++
          [Stdout ("Processing: " +:+ f);
           Stdout ("  Error: '" +:+ type_name v
                   +:+ "' object has no attribute 'get'")]) w).
Proof.
  intros Hf Hl Hv.
  erewrite main_loop_caught; [|by eapply saidify_file_not_object|done].
  unfold with_out; simpl. by rewrite <- (assoc_L (++)).
Qed.

End Outcomes.

(** ** Whole runs *)

Section WholeRun.
Context `{Python} `{Keri}.

Lemma strip_prefix_app (p s : string) : PyStr.strip_prefix p (p +:+ s) = Some s.
Proof.
  induction p as [|a p IH]; [done|].
  rewrite str_app_cons. simpl. by rewrite Ascii.eqb_refl.
Qed.



(** The lines after the loop: one per result, in the order of the
    results. *)
Lemma print_consts_run (results : list (string * string)) (w : world) :
  print_consts results w = (inr tt, with_out (out w ++ const_lines results) w).
Proof.
  revert w. induction results as [|[name said] results IH]; intros w.
  - unfold with_out. simpl. rewrite app_nil_r. by destruct w.
  - simpl. unfold bind, print. rewrite IH. unfold with_out; simpl.
    by rewrite <- (assoc_L (++)).
Qed.





End WholeRun.


Section Results.
Context `{Python} `{Keri}.




(** X6. What [main] prints after the loop: when files were named and the
    loop returned its results, nothing is printed if there is no result,
    and else the header and one [const] line per result, in the order of
    the results; no file changes after the loop. *)
Theorem main_prints_summary (inv : invocation)
    (results : list (string * string)) (w w1 : world) :
  main_loop (batch_of inv) [] w = (inr results, w1) →
  args_all inv = true ∨ args_files inv ≠ [] →
  main inv w = (inr tt, with_out (out w1 ++ summary results) w1).
Proof.
  intros Hl Hnamed.
  assert (Hrun :
    (results <- main_loop (batch_of inv) [] ;;
     match results with
     | [] => ret tt
     | _ => print (nl +:+ "=== SAIDs for code ===" +:+ nl) ;;;
            print_consts results
     end) w = (inr tt, with_out (out w1 ++ summary results) w1)).
  { unfold bind. rewrite Hl. destruct results as [|r results].
    - unfold ret, with_out, summary. rewrite app_nil_r. by destruct w1.
    - unfold print. rewrite print_consts_run. unfold with_out, summary; simpl.
      by rewrite <- (assoc_L (++)). }
  unfold main. unfold batch_of in Hrun.
  destruct (args_all inv); [done|].
  destruct (args_files inv) as [|f fs]; [|done].
  by destruct Hnamed.
Qed.

(** X7. A second run finds nothing to do: after a run that returned the
    identifier of a file on storage that takes every write, and with a
    reader that reads back what the writer wrote, [saidify_file] on the
    same file returns the same identifier, prints that nothing changed
    and leaves every file as the first run left it. *)
Theorem saidify_file_second_run (f text said : string) (d : pydict)
    (w : world) :
  files w !! f = Some text →
  json_loads text = inr (JObj d) →
  said_of d = inr said →
  storage w f = Writable →
  json_loads (new_text d said) = inr (JObj (dict_set "$id" (JStr said) d)) →
  let w1 := snd (saidify_file f w) in
  ∃ w2, saidify_file f w1 = (inr said, w2) ∧
        files w2 = files w1 ∧
        events_since w1 w2 =
          report f (JStr said) said ++ [Stdout "  (no change)"].
Proof.
  intros Hf Hl Hs Hst Hround. cbv zeta.
  assert (Heq : py_eq_str (JStr said) said = true).
  { unfold py_eq_str. apply String.eqb_refl. }
  destruct (py_eq_str (old_id_of d) said) eqn:He.
  - assert (Hold : old_id_of d = JStr said).
    { destruct (old_id_of d); try done. simpl in He.
      by apply String.eqb_eq in He as ->. }
    rewrite (saidify_file_run _ _ _ _ _ Hf Hl Hs), He. simpl.
    rewrite (saidify_file_run f text said d) by done.
    rewrite He. eexists. split; [reflexivity|]. split; [done|].
    apply events_since_app. rewrite Hold. unfold with_out; simpl.
    by rewrite <- !(assoc_L (++)).
  - rewrite (saidify_file_rewrite _ _ _ _ _ Hf Hl Hs He), Hst. simpl.
    assert (Hs' : said_of (dict_set "$id" (JStr said) d) = inr said).
    { unfold said_of in *. by rewrite dict_pop_set. }
    assert (Hold : old_id_of (dict_set "$id" (JStr said) d) = JStr said).
    { unfold old_id_of. by rewrite dict_get_set. }
    rewrite (saidify_file_run f (new_text d said) said
               (dict_set "$id" (JStr said) d));
      [|by apply lookup_insert_eq|done|done].
    rewrite Hold, Heq. eexists. split; [reflexivity|]. split; [done|].
    apply events_since_app. unfold with_out; simpl.
    by rewrite <- !(assoc_L (++)).
Qed.
End Results.

(** ** More on the constant names *)

Section ConstNames.
Implicit Types (old new s : string) (x c : ascii).

(** X8. The prefix goes: a name with ['matou-'] in front has the constant
    name of the name without it. *)
Theorem const_name_drops_prefix (name : string) :
  const_name ("matou-" +:+ name) = const_name name.
Proof.
  unfold const_name.
  rewrite (replace_match _ _ _ _ _ (strip_prefix_app "matou-" name)).
  by rewrite str_app_nil_l.
Qed.

Lemma contains_unfold old s :
  PyStr.contains old s =
    PyStr.startswith old s ||
    match s with
    | EmptyString => false
    | String _ s' => PyStr.contains old s'
    end.
Proof. by destruct s. Qed.








Lemma contains_middle old (a b : string) :
  PyStr.contains old (a +:+ old +:+ b) = true.
Proof.
  induction a as [|c a IH].
  - rewrite str_app_nil_l, contains_unfold. unfold PyStr.startswith.
    by rewrite strip_prefix_app.
  - rewrite str_app_cons, contains_unfold, IH. apply orb_true_r.
Qed.

(** X10. Every constant name holds ['_SAID']. *)
Theorem const_name_has_suffix (name : string) :
  PyStr.contains "_SAID" (const_name name) = true.
Proof.
  unfold const_name.
  set (c := PyStr.upper _).
  rewrite (split_first_contains "_SCHEMA" c).
  destruct (PyStr.split_first "_SCHEMA" c) as [[before after]|] eqn:Hsp.
  - rewrite bool_decide_eq_false_2 by done. cbv [negb].
    rewrite (replace_split_first _ _ _ _ _ _ Hsp).
    change ("_SCHEMA_SAID" +:+ ?t) with ("_SCHEMA" +:+ "_SAID" +:+ t).
    rewrite <- (str_app_assoc before "_SCHEMA").
    apply contains_middle.
  - rewrite bool_decide_eq_true_2 by done. cbv [negb].
    rewrite <- (str_app_nil_r "_SAID"). apply contains_middle.
Qed.
End ConstNames.

(** ** What a run stores and what it returns *)

Section Stored.
Context `{Python} `{Keri}.

Lemma dict_set_absent {V} (k : string) (v : V) (d : list (string * V)) :
  dict_get k d = None → dict_set k v d = d ++ [(k, v)].
Proof.
  induction d as [|[k' v'] d IH]; simpl; [done|].
  destruct (String.eqb k k'); [done|]. intros Hd. by rewrite IH.
Qed.

Lemma dict_set_keys_present {V} (k : string) (v : V) (d : list (string * V)) :
  dict_get k d ≠ None → dict_keys (dict_set k v d) = dict_keys d.
Proof.
  induction d as [|[k' v'] d IH]; simpl; [done|].
  destruct (String.eqb_spec k k') as [->|Hne]; [done|].
  intros Hd. simpl. by rewrite IH.
Qed.

Lemma py_eq_str_true (v : json) (said : string) :
  py_eq_str v said = true ↔ v = JStr said.
Proof.
  split.
  - destruct v; try done. simpl. by intros ->%String.eqb_eq.
  - intros ->. simpl. apply String.eqb_refl.
Qed.

(** X11. Where the identifier goes: the text a run writes on storage
    that takes every write is the dump of a dict that holds the computed
    identifier under ['$id'] and, apart from that entry, the fields of the
    file in their order; an ['$id'] that was there keeps its place, one
    that was not goes last. *)
Theorem saidify_file_places_id (f text said : string) (d : pydict)
    (w : world) :
  files w !! f = Some text →
  json_loads text = inr (JObj d) →
  said_of d = inr said →
  py_eq_str (old_id_of d) said = false →
  storage w f = Writable →
  ∃ d',
    files (snd (saidify_file f w)) !! f = Some (json_dumps (JObj d') +:+ nl) ∧
    dict_get "$id" d' = Some (JStr said) ∧
    dict_pop "$id" d' = dict_pop "$id" d ∧
    (dict_get "$id" d = None → d' = d ++ [("$id", JStr said)]) ∧
    (dict_get "$id" d ≠ None → dict_keys d' = dict_keys d).
Proof.
  intros Hf Hl Hs He Hst.
  exists (dict_set "$id" (JStr said) d).
  rewrite (saidify_file_rewrite _ _ _ _ _ Hf Hl Hs He), Hst. simpl.
  rewrite lookup_insert_eq. split; [done|].
  split; [apply dict_get_set|]. split; [apply dict_pop_set|].
  split; [apply dict_set_absent|apply dict_set_keys_present].
Qed.

(** X12. A write that fails is an error of that file: where the open is
    refused, or the storage takes less than the new text, the loop prints
    the error after the lines of the file, records no result for it and
    goes on. *)
Theorem main_loop_records_write_failure (f text said : string) (d : pydict)
    (rest : list string) (results : list (string * string)) (w : world) :
  files w !! f = Some text →
  json_loads text = inr (JObj d) →
  said_of d = inr said →
  py_eq_str (old_id_of d) said = false →
  storage w f = ReadOnly ∨
  (∃ n, storage w f = Full n ∧ n < String.length (new_text d said)) →
  ∃ w1 msg,
    main_loop (f :: rest) results w = main_loop rest results w1 ∧
    out w1 =
      out w ++ report f (old_id_of d) said
        ++ [OpenW f; Stdout ("  Error: " +:+ msg)].
Proof.
  intros Hf Hl Hs He Hst.
  pose proof (saidify_file_rewrite _ _ _ _ _ Hf Hl Hs He) as Hrun.
  simpl in Hrun.
  destruct Hst as [Hst | (n & Hst & Hn)]; rewrite Hst in Hrun.
  - eexists _, _. split.
    + by apply (main_loop_caught _ _ _ _ _ _ Hrun).
    + unfold with_out; simpl. by rewrite <- !(assoc_L (++)).
  - destruct (Nat.leb_spec (String.length (new_text d said)) n); [lia|].
    eexists _, _. split.
    + by apply (main_loop_caught _ _ _ _ _ _ Hrun).
    + unfold with_out; simpl. by rewrite <- !(assoc_L (++)).
Qed.

(** X13. What a returned identifier means: when [saidify_file] returns,
    the file existed and held a JSON object, the value is the identifier
    the library computes for it, and the file either held that identifier
    as its old value and no file changed, or holds the new text. *)
Theorem saidify_file_returns (f said : string) (w w' : world) :
  saidify_file f w = (inr said, w') →
  ∃ text d,
    files w !! f = Some text ∧
    json_loads text = inr (JObj d) ∧
    said_of d = inr said ∧
    ((old_id_of d = JStr said ∧ files w' = files w) ∨
     (old_id_of d ≠ JStr said ∧
      files w' = <[f := new_text d said]> (files w))).
Proof.
  intros Hrun.
  destruct (files w !! f) as [text|] eqn:Hf;
    [|by rewrite (saidify_file_not_found _ _ Hf) in Hrun].
  destruct (json_loads text) as [msg|v] eqn:Hl;
    [by rewrite (saidify_file_parse_error _ _ _ _ Hf Hl) in Hrun|].
  assert (Hcase : (∃ d, v = JObj d) ∨ (∀ d, v ≠ JObj d)).
  { destruct v; try (by right); left; by eexists. }
  destruct Hcase as [[d ->] | Hno];
    [|by rewrite (saidify_file_not_object _ _ _ _ Hf Hl Hno) in Hrun].
  destruct (said_of d) as [e|said0] eqn:Hs;
    [by rewrite (saidify_file_library_error _ _ _ _ _ Hf Hl Hs) in Hrun|].
  exists text, d.
  destruct (py_eq_str (old_id_of d) said0) eqn:He.
  - rewrite (saidify_file_run _ _ _ _ _ Hf Hl Hs), He in Hrun.
    injection Hrun as <- <-. apply py_eq_str_true in He.
    repeat split; try done. by left.
  - assert (Hne : old_id_of d ≠ JStr said0).
    { intros Heq%py_eq_str_true. congruence. }
    rewrite (saidify_file_rewrite _ _ _ _ _ Hf Hl Hs He) in Hrun.
    destruct (storage w f) as [| |n]; simpl in Hrun.
    + injection Hrun as <- <-. repeat split; try done. by right.
    + done.
    + destruct (Nat.leb _ n); [|done].
      injection Hrun as <- <-. repeat split; try done. by right.
Qed.
End Stored.

(** ** More runs on concrete inputs *)

Section MoreRuns.
Import Demo DemoBatch.

Ltac run_closed := vm_compute; reflexivity.


Lemma main_loop_skips_non_object_witness :
  files w_list !! "l.json" = Some "[]" ∧
  json_loads "[]" = inr (JArr []) ∧
  (∀ d, JArr [] ≠ JObj d) ∧
  @main_loop python keri ["l.json"] [] w_list =
    @main_loop python keri [] []
      (with_out
         (out w_list ++
          [Stdout ("Processing: " +:+ "l.json");
           Stdout ("  Error: '" +:+ type_name (JArr [])
                   +:+ "' object has no attribute 'get'")]) w_list).
Proof.
  repeat (split; [first [run_closed | intros d; discriminate]|]).
  apply (@main_loop_skips_non_object python keri "l.json" "[]" (JArr []) [] []
           w_list); first [run_closed | intros d; discriminate].
Defined.





Lemma main_prints_summary_witness :
  @main_loop python keri
    (batch_of (Invocation false ["matou-a.json"; "b.json"] [])) [] w_mixed =
    (inr [("matou-a", said_foo)],
     snd (@main_loop python keri ["matou-a.json"; "b.json"] [] w_mixed)) ∧
  (args_all (Invocation false ["matou-a.json"; "b.json"] []) = true ∨
   args_files (Invocation false ["matou-a.json"; "b.json"] []) ≠ []) ∧
  @main python keri (Invocation false ["matou-a.json"; "b.json"] []) w_mixed =
    (inr tt,
     with_out
       (out (snd (@main_loop python keri ["matou-a.json"; "b.json"] [] w_mixed))
        ++ summary [("matou-a", said_foo)])
       (snd (@main_loop python keri ["matou-a.json"; "b.json"] [] w_mixed))).
Proof.
  split; [run_closed|]. split; [right; discriminate|].
  apply (@main_prints_summary python keri
           (Invocation false ["matou-a.json"; "b.json"] [])
           [("matou-a", said_foo)] w_mixed).
  - run_closed.
  - right. discriminate.
Defined.

Lemma saidify_file_second_run_witness :
  files w_int_id !! "a.json" = Some text_int_id ∧
  json_loads text_int_id = inr (JObj doc_int_id) ∧
  @said_of keri doc_int_id = inr said_foo ∧
  storage w_int_id "a.json" = Writable ∧
  json_loads (new_text doc_int_id said_foo) =
    inr (JObj (dict_set "$id" (JStr said_foo) doc_int_id)) ∧
  ∃ w2,
    @saidify_file python keri "a.json"
      (snd (@saidify_file python keri "a.json" w_int_id)) = (inr said_foo, w2) ∧
    files w2 = files (snd (@saidify_file python keri "a.json" w_int_id)) ∧
    events_since (snd (@saidify_file python keri "a.json" w_int_id)) w2 =
      report "a.json" (JStr said_foo) said_foo ++ [Stdout "  (no change)"].
Proof.
  repeat (split; [run_closed|]).
  apply (@saidify_file_second_run python keri "a.json" text_int_id said_foo
           doc_int_id w_int_id); run_closed.
Defined.

Lemma saidify_file_places_id_witness :
  files w_foo !! "a.json" = Some text_foo ∧
  json_loads text_foo = inr (JObj doc_foo) ∧
  @said_of keri doc_foo = inr said_foo ∧
  py_eq_str (old_id_of doc_foo) said_foo = false ∧
  storage w_foo "a.json" = Writable ∧
  ∃ d',
    files (snd (@saidify_file python keri "a.json" w_foo)) !! "a.json" =
      Some (json_dumps (JObj d') +:+ nl) ∧
    dict_get "$id" d' = Some (JStr said_foo) ∧
    dict_pop "$id" d' = dict_pop "$id" doc_foo ∧
    (dict_get "$id" doc_foo = None → d' = doc_foo ++ [("$id", JStr said_foo)]) ∧
    (dict_get "$id" doc_foo ≠ None → dict_keys d' = dict_keys doc_foo).
Proof.
  repeat (split; [run_closed|]).
  apply (@saidify_file_places_id python keri "a.json" text_foo said_foo
           doc_foo w_foo); run_closed.
Defined.

Lemma main_loop_records_write_failure_witness :
  files w_full !! "a.json" = Some text_foo ∧
  json_loads text_foo = inr (JObj doc_foo) ∧
  @said_of keri doc_foo = inr said_foo ∧
  py_eq_str (old_id_of doc_foo) said_foo = false ∧
  (storage w_full "a.json" = ReadOnly ∨
   ∃ n, storage w_full "a.json" = Full n ∧
        n < String.length (new_text doc_foo said_foo)) ∧
  ∃ w1 msg,
    @main_loop python keri ["a.json"] [] w_full =
      @main_loop python keri [] [] w1 ∧
    out w1 =
      out w_full ++ report "a.json" (old_id_of doc_foo) said_foo
        ++ [OpenW "a.json"; Stdout ("  Error: " +:+ msg)].
Proof.
  assert (Hst : storage w_full "a.json" = ReadOnly ∨
                ∃ n, storage w_full "a.json" = Full n ∧
                     n < String.length (new_text doc_foo said_foo)).
  { right. exists 7. split; [reflexivity|]. vm_compute. lia. }
  repeat (split; [first [run_closed | exact Hst]|]).
  apply (@main_loop_records_write_failure python keri "a.json" text_foo
           said_foo doc_foo [] [] w_full); first [run_closed | exact Hst].
Defined.

Lemma saidify_file_returns_witness :
  @saidify_file python keri "a.json" w_foo =
    (inr said_foo, snd (@saidify_file python keri "a.json" w_foo)) ∧
  ∃ text d,
    files w_foo !! "a.json" = Some text ∧
    json_loads text = inr (JObj d) ∧
    @said_of keri d = inr said_foo ∧
    ((old_id_of d = JStr said_foo ∧
      files (snd (@saidify_file python keri "a.json" w_foo)) = files w_foo) ∨
     (old_id_of d ≠ JStr said_foo ∧
      files (snd (@saidify_file python keri "a.json" w_foo)) =
        <["a.json" := new_text d said_foo]> (files w_foo))).
Proof.
  split; [run_closed|].
  apply (@saidify_file_returns python keri "a.json" said_foo w_foo). run_closed.
Defined.
End MoreRuns.
